(** * Mental-health demo pipeline: text normaliser, classifier calls, risk map

    Shallow embedding of the Python sources
      - [Text Analysis/Text_Sentiment.py]
      - [Speech-Text-Analysis/speech-text.py]
      - [Speech-Text-Analysis/Speech_Sentiment.py]
      - [Speech-Text-Analysis/Text_Sentiment.py]
    A Python [str] is a sequence of Unicode code points; the functions of the
    interpreter that [clean_text] calls ([re.sub], [str.lower], [str.strip],
    [str.split], [str.join]) are written out the way CPython runs them.  The
    two big tables of the Unicode database they consult (alphanumeric class
    and full lower-case mapping) and the NLTK stop-word corpus are parameters
    of the development. *)

From Stdlib Require Import NArith QArith Qabs Lia List String Ascii.
From stdpp Require Import base list strings gmap.
Import ListNotations.

(** ** Python strings *)

(** A string is its sequence of code points. *)
Definition str : Type := list N.

Definition in_range (lo hi ch : N) : bool := ((lo <=? ch) && (ch <=? hi))%N.

(** [_PyUnicode_IsWhitespace] (Objects/unicodetype_db.h): the code points for
    which [str.isspace], [str.split], [str.strip] and the regex class [\s]
    on [str] patterns answer yes. *)
Definition Py_UNICODE_ISSPACE (ch : N) : bool :=
  in_range 0x09 0x0D ch || in_range 0x1C 0x1F ch || (ch =? 0x20)%N
  || (ch =? 0x85)%N || (ch =? 0xA0)%N || (ch =? 0x1680)%N
  || in_range 0x2000 0x200A ch || (ch =? 0x2028)%N || (ch =? 0x2029)%N
  || (ch =? 0x202F)%N || (ch =? 0x205F)%N || (ch =? 0x3000)%N.

Definition SPACE : N := 0x20%N.
Definition UNDERSCORE : N := 0x5F%N.
Definition CAPITAL_SIGMA : N := 0x3A3%N.
Definition FINAL_SIGMA : N := 0x3C2%N.
Definition SMALL_SIGMA : N := 0x3C3%N.

(** An ASCII literal as a [str]. *)
Definition py (s : string) : str := map N_of_ascii (list_ascii_of_string s).

Definition str_eqb (a b : str) : bool := bool_decide (a = b).

(** [x in xs] on a Python list of strings. *)
Definition contains (xs : list str) (x : str) : bool := existsb (str_eqb x) xs.

Fixpoint drop_while (p : N -> bool) (s : str) : str :=
  match s with
  | [] => []
  | c :: rest => if p c then drop_while p rest else s
  end.

(** [str.strip()] with no argument. *)
Definition lstrip (s : str) : str := drop_while Py_UNICODE_ISSPACE s.
Definition rstrip (s : str) : str := rev (drop_while Py_UNICODE_ISSPACE (rev s)).
Definition strip (s : str) : str := rstrip (lstrip s).

(** [str.split()] with no argument: one left-to-right scan; [cur] holds the
    characters of the word being read, last one first. *)
Definition flush (cur : str) : list str :=
  match cur with
  | [] => []
  | _ :: _ => [rev cur]
  end.

Fixpoint split_from (cur : str) (s : str) : list str :=
  match s with
  | [] => flush cur
  | c :: rest =>
      if Py_UNICODE_ISSPACE c then flush cur ++ split_from [] rest
      else split_from (c :: cur) rest
  end.

Definition split (s : str) : list str := split_from [] s.

(** [sep.join(words)]. *)
Fixpoint join (sep : str) (words : list str) : str :=
  match words with
  | [] => []
  | w :: ws =>
      match ws with
      | [] => w
      | _ :: _ => w ++ sep ++ join sep ws
      end
  end.

Definition nonspace (ch : N) : bool := negb (Py_UNICODE_ISSPACE ch).

(** A word as [str.split] yields them: not empty, no white space inside. *)
Definition is_token (w : str) : bool :=
  match w with
  | [] => false
  | _ :: _ => forallb nonspace w
  end.

(** ** The text normaliser *)

Section Normalizer.

(** [Py_UNICODE_ISALNUM]: alphabetic, decimal, digit or numeric. *)
Variable isalnum : N -> bool.
(** [_PyUnicode_ToLowerFull]: one code point to its (one to three) lower-case
    code points. *)
Variable tolower_full : N -> list N.
(** The final-sigma test of [handle_capital_sigma], from the characters
    before (nearest first) and after a capital sigma. *)
Variable final_sigma : str -> str -> bool.
(** [stopwords.words('english')]. *)
Variable stopwords : list str.

(** The regex class [\w] on a [str] pattern (SRE_CATEGORY_UNI_WORD). *)
Definition is_word (ch : N) : bool := isalnum ch || (ch =? UNDERSCORE)%N.

(** What [[^\w\s]] does not match. *)
Definition kept (ch : N) : bool := is_word ch || Py_UNICODE_ISSPACE ch.

(** [re.sub(r'[^\w\s]', '', text)]. *)
Definition re_sub_nonword (text : str) : str := List.filter kept text.

(** [lower_ucs4]: the lower case of [c] standing between [before] and
    [after]. *)
Definition lower_ucs4 (before : str) (c : N) (after : str) : list N :=
  if (c =? CAPITAL_SIGMA)%N
  then [if final_sigma before after then FINAL_SIGMA else SMALL_SIGMA]
  else tolower_full c.

Fixpoint lower_from (before : str) (s : str) : str :=
  match s with
  | [] => []
  | c :: rest => lower_ucs4 before c rest ++ lower_from (c :: before) rest
  end.

(** [str.lower()]. *)
Definition lower (s : str) : str := lower_from [] s.

Definition not_stopword (word : str) : bool := negb (contains stopwords word).

(** [clean_text] of [Text Analysis/Text_Sentiment.py] and of
    [Speech-Text-Analysis/speech-text.py] (the two bodies are the same). *)
Definition clean_text (text : str) : str :=
  let text := re_sub_nonword text in
  let text := strip (lower text) in
  join [SPACE] (List.filter not_stopword (split text)).

(** Code points that [str.lower] leaves alone wherever they stand. *)
Definition lower_fixed (ch : N) : bool :=
  negb (ch =? CAPITAL_SIGMA)%N && str_eqb (tolower_full ch) [ch].

(** Code points that both the regex and [str.lower] leave alone. *)
Definition stable (ch : N) : bool := kept ch && lower_fixed ch.

(** Code points whose lower case is at most one code point long. *)
Definition lower_short (ch : N) : bool := (length (tolower_full ch) <=? 1)%nat.

End Normalizer.

(** ** A fragment of the Unicode database and the NLTK corpus

    Exact on ASCII (U+0000 to U+007F), on U+0130 (capital I with dot above) and
    on U+0307 (combining dot above); the examples below stay inside it. *)

Definition ucd_isalnum (ch : N) : bool :=
  in_range 0x30 0x39 ch || in_range 0x41 0x5A ch || in_range 0x61 0x7A ch
  || (ch =? 0x130)%N.

Definition ucd_tolower_full (ch : N) : list N :=
  if in_range 0x41 0x5A ch then [(ch + 32)%N]
  else if (ch =? 0x130)%N then [0x69%N; 0x307%N]
  else [ch].

Definition ucd_final_sigma (before after : str) : bool := false.

(** The list [stopwords.words('english')] of the NLTK stop-word corpus (179
    words). *)
Definition nltk_english : list str := map py
  [ "i"; "me"; "my"; "myself"; "we"; "our"; "ours"; "ourselves"; "you";
    "you're"; "you've"; "you'll"; "you'd"; "your"; "yours"; "yourself";
    "yourselves"; "he"; "him"; "his"; "himself"; "she"; "she's"; "her";
    "hers"; "herself"; "it"; "it's"; "its"; "itself"; "they"; "them";
    "their"; "theirs"; "themselves"; "what"; "which"; "who"; "whom"; "this";
    "that"; "that'll"; "these"; "those"; "am"; "is"; "are"; "was"; "were";
    "be"; "been"; "being"; "have"; "has"; "had"; "having"; "do"; "does";
    "did"; "doing"; "a"; "an"; "the"; "and"; "but"; "if"; "or"; "because";
    "as"; "until"; "while"; "of"; "at"; "by"; "for"; "with"; "about";
    "against"; "between"; "into"; "through"; "during"; "before"; "after";
    "above"; "below"; "to"; "from"; "up"; "down"; "in"; "out"; "on"; "off";
    "over"; "under"; "again"; "further"; "then"; "once"; "here"; "there";
    "when"; "where"; "why"; "how"; "all"; "any"; "both"; "each"; "few";
    "more"; "most"; "other"; "some"; "such"; "no"; "nor"; "not"; "only";
    "own"; "same"; "so"; "than"; "too"; "very"; "s"; "t"; "can"; "will";
    "just"; "don"; "don't"; "should"; "should've"; "now"; "d"; "ll"; "m";
    "o"; "re"; "ve"; "y"; "ain"; "aren"; "aren't"; "couldn"; "couldn't";
    "didn"; "didn't"; "doesn"; "doesn't"; "hadn"; "hadn't"; "hasn";
    "hasn't"; "haven"; "haven't"; "isn"; "isn't"; "ma"; "mightn";
    "mightn't"; "mustn"; "mustn't"; "needn"; "needn't"; "shan"; "shan't";
    "shouldn"; "shouldn't"; "wasn"; "wasn't"; "weren"; "weren't"; "won";
    "won't"; "wouldn"; "wouldn't" ]%string.

(** [clean_text] as the interpreter runs it on text inside the fragment. *)
Definition py_clean_text : str -> str :=
  clean_text ucd_isalnum ucd_tolower_full ucd_final_sigma nltk_english.

(** ** The emotion classifier pipeline *)

(** One entry of a prediction: [{'label': ..., 'score': ...}]. *)
Record EmotionScore : Type := { label : string; score : Q }.

(** The labels of j-hartmann/emotion-english-distilroberta-base, in the order
    of its [id2label]. *)
Definition id2label : list string :=
  [ "anger"; "disgust"; "fear"; "joy"; "neutral"; "sadness"; "surprise" ]%string.

(** Keyword arguments of [pipeline(...)] and of a call of the pipeline. *)
Record pipeline_config : Type := { return_all_scores : bool }.
Record call_kwargs : Type := { truncation : bool; max_length : option nat }.

Definition no_kwargs : call_kwargs := {| truncation := false; max_length := None |}.

(** What [model(text, ...)[0]] is: the list of all scores when the pipeline
    was built with [return_all_scores=True], the best entry alone otherwise. *)
Inductive prediction : Type :=
| AllScores (scores : list EmotionScore)
| TopScore (best : EmotionScore).

Definition scores_of (p : prediction) : list EmotionScore :=
  match p with
  | AllScores scores => scores
  | TopScore best => [best]
  end.

(** The entry of highest score, the first one on ties. *)
Fixpoint argmax (scores : list EmotionScore) : option EmotionScore :=
  match scores with
  | [] => None
  | x :: rest =>
      match argmax rest with
      | None => Some x
      | Some y => if Qle_bool (score y) (score x) then Some x else Some y
      end
  end.

Section Pipeline.

(** The tokenizer of the model and its classification head (softmax over
    [id2label]). *)
Variable tokenize : str -> list N.
Variable forward : list N -> list EmotionScore.

(** The tokenizer's [model_max_length], used when [truncation=True] comes
    without [max_length]. *)
Definition model_max_length : nat := 512.

(** The token ids handed to the model. *)
Definition encode (kw : call_kwargs) (text : str) : list N :=
  let ids := tokenize text in
  if truncation kw then firstn (default model_max_length (max_length kw)) ids
  else ids.

(** [model(text, **kw)[0]]. *)
Definition classify (cfg : pipeline_config) (kw : call_kwargs) (text : str)
  : option prediction :=
  let scores := forward (encode kw text) in
  if return_all_scores cfg then Some (AllScores scores)
  else TopScore <$> argmax scores.

End Pipeline.

(** ** Presentation mapping *)

(** One rendered card. *)
Record card : Type :=
  { card_label : string; card_score : Q; card_diagnosis : string; card_color : string }.

(** [d.get(key, fallback)]. *)
Definition dict_get {V : Type} (d : gmap string V) (key : string) (fallback : V) : V :=
  default fallback (d !! key).

(** [s[:limit] + "..." if len(s) > limit else s]. *)
Definition ellipsis (limit : nat) (s : str) : str :=
  if (limit <? length s)%nat then firstn limit s ++ py "..." else s.

(** *** Text Analysis/Text_Sentiment.py *)
Module TextAnalysis.

Definition load_emotion_model : pipeline_config := {| return_all_scores := true |}.

Definition health_map : gmap string (string * string) :=
  list_to_map
    [ ("sadness", ("Potential Depression", "#e74c3c"));
      ("fear", ("Anxiety Indicators", "#3498db"));
      ("anger", ("Stress Markers", "#f1c40f"));
      ("neutral", ("Baseline State", "#2ecc71")) ]%string.

(** The body of [for pred in predictions]. *)
Definition render (pred : EmotionScore) : card :=
  let label := label pred in
  let score := score pred in
  let '(diagnosis, color) := dict_get health_map label ("Other", "#95a5a6")%string in
  {| card_label := label; card_score := score;
     card_diagnosis := diagnosis; card_color := color |}.

Section Main.
Variables (isalnum : N -> bool) (tolower_full : N -> list N)
          (final_sigma : str -> str -> bool) (stopwords : list str)
          (tokenize : str -> list N) (forward : list N -> list EmotionScore).

Definition call_kw : call_kwargs := {| truncation := true; max_length := Some 512 |}.

(** [predictions] of [main_interface], for a non-empty [text]. *)
Definition predictions (text : str) : option prediction :=
  let cleaned_text := clean_text isalnum tolower_full final_sigma stopwords text in
  classify tokenize forward load_emotion_model call_kw cleaned_text.

(** The cards [main_interface] draws; nothing is analysed when [text] is
    empty, [None] stands for an exception. *)
Definition main_interface (text : str) : option (list card) :=
  match text with
  | [] => Some []
  | _ :: _ => map render <$> (scores_of <$> predictions text)
  end.

(** The "Processed Length" metric of [main_interface]:
    [len(cleaned_text.split())]. *)
Definition processed_length (text : str) : nat :=
  length (split (clean_text isalnum tolower_full final_sigma stopwords text)).

(** The text in the overview box of [main_interface]:
    [cleaned_text[:200] + "..." if len(cleaned_text) > 200 else cleaned_text]. *)
Definition overview (text : str) : str :=
  ellipsis 200 (clean_text isalnum tolower_full final_sigma stopwords text).
End Main.

End TextAnalysis.

(** *** Speech-Text-Analysis/speech-text.py *)
Module SpeechText.

Definition load_models : pipeline_config := {| return_all_scores := true |}.

Definition health_map_text : gmap string (string * string) :=
  list_to_map
    [ ("sadness", ("Potential Depression", "#e74c3c"));
      ("fear", ("Anxiety Indicators", "#3498db"));
      ("anger", ("Stress Markers", "#f1c40f"));
      ("neutral", ("Baseline State", "#2ecc71")) ]%string.

Definition health_map_speech : gmap string (string * string) :=
  list_to_map
    [ ("sadness", ("Depression Risk", "#e74c3c"));
      ("fear", ("Anxiety Signs", "#3498db"));
      ("anger", ("Stress Level", "#f1c40f"));
      ("neutral", ("Baseline State", "#2ecc71")) ]%string.

Definition render_with (health_map : gmap string (string * string))
    (pred : EmotionScore) : card :=
  let label := label pred in
  let score := score pred in
  let '(diagnosis, color) := dict_get health_map label ("Other", "#95a5a6")%string in
  {| card_label := label; card_score := score;
     card_diagnosis := diagnosis; card_color := color |}.

Section Main.
Variables (isalnum : N -> bool) (tolower_full : N -> list N)
          (final_sigma : str -> str -> bool) (stopwords : list str)
          (tokenize : str -> list N) (forward : list N -> list EmotionScore).

Definition text_call_kw : call_kwargs := {| truncation := true; max_length := Some 512 |}.

(** Text mode: [model(cleaned_text, truncation=True, max_length=512)[0]]. *)
Definition text_predictions (text : str) : option prediction :=
  let cleaned_text := clean_text isalnum tolower_full final_sigma stopwords text in
  classify tokenize forward load_models text_call_kw cleaned_text.

(** Speech mode: [models['emotion_model'](result["text"])], then
    [emotions[0]]; [transcript] is [result["text"]]. *)
Definition speech_predictions (transcript : str) : option prediction :=
  classify tokenize forward load_models no_kwargs transcript.

Definition main_text (text : str) : option (list card) :=
  match text with
  | [] => Some []
  | _ :: _ => map (render_with health_map_text) <$> (scores_of <$> text_predictions text)
  end.

Definition main_speech (transcript : str) : option (list card) :=
  map (render_with health_map_speech) <$> (scores_of <$> speech_predictions transcript).

(** The "Processed Text" of text mode:
    [cleaned_text[:500] + "..." if len(cleaned_text) > 500 else cleaned_text]. *)
Definition processed_text (text : str) : str :=
  ellipsis 500 (clean_text isalnum tolower_full final_sigma stopwords text).
End Main.

End SpeechText.

(** *** Speech-Text-Analysis/Speech_Sentiment.py *)
Module SpeechSentiment.

Definition load_models : pipeline_config := {| return_all_scores := true |}.

(** Here the values are (color, diagnosis). *)
Definition health_map : gmap string (string * string) :=
  list_to_map
    [ ("sadness", ("#e74c3c", "Depression Risk"));
      ("fear", ("#3498db", "Anxiety Signs"));
      ("anger", ("#f1c40f", "Stress Level"));
      ("neutral", ("#2ecc71", "Baseline State")) ]%string.

Definition render (emotion : EmotionScore) : card :=
  let label := label emotion in
  let score := score emotion in
  let '(color, diagnosis) := dict_get health_map label ("#95a5a6", "Neutral")%string in
  {| card_label := label; card_score := score;
     card_diagnosis := diagnosis; card_color := color |}.

Section Main.
Variables (tokenize : str -> list N) (forward : list N -> list EmotionScore).

(** [models['emotion_model'](result["text"])], then [emotions[0]]. *)
Definition predictions (transcript : str) : option prediction :=
  classify tokenize forward load_models no_kwargs transcript.

Definition main (transcript : str) : option (list card) :=
  map render <$> (scores_of <$> predictions transcript).
End Main.

End SpeechSentiment.

(** *** Speech-Text-Analysis/Text_Sentiment.py *)
Module SpeechTextSentiment.

(** No [return_all_scores] here: the pipeline keeps its default. *)
Definition load_models : pipeline_config := {| return_all_scores := false |}.

Section Main.
Variables (tokenize : str -> list N) (forward : list N -> list EmotionScore).

(** [models['emotion_model'](transcription)[0]]. *)
Definition emotions (transcription : str) : option prediction :=
  classify tokenize forward load_models no_kwargs transcription.

(** [label, score = emotions['label'], emotions['score']]. *)
Definition main (transcription : str) : option (string * Q) :=
  match emotions transcription with
  | Some (TopScore best) => Some (label best, score best)
  | _ => None
  end.
End Main.

End SpeechTextSentiment.

(** The texts of the examples. *)
Definition hopeless : str := py "I feel hopeless and empty".
Definition dotted_I : str := [0x130%N].

(** ** Notions the specification uses *)

(** The characters of Python's [string.punctuation]:
    ! to /, : to @, [ to `, { to ~ (the underscore is one of them). *)
Definition is_punctuation (ch : N) : bool :=
  in_range 0x21 0x2F ch || in_range 0x3A 0x40 ch || in_range 0x5B 0x60 ch
  || in_range 0x7B 0x7E ch.

Definition is_ascii (ch : N) : bool := (ch <? 128)%N.

(** [out] is made of words of [inp], in their order, and leaves some out. *)
Definition ordered_strict_subset (out inp : list str) : Prop :=
  sublist out inp /\ out <> inp.


(** The labels that have an entry in every [health_map]. *)
Definition mapped_labels : list string :=
  [ "sadness"; "fear"; "anger"; "neutral" ]%string.






(** What the page shows of the risk mapping: (category, color). *)
Definition risk (c : card) : string * string := (card_diagnosis c, card_color c).

(** Stand-ins for the external models, to run the pipeline on examples: one
    token per character, and a head that scores every label 1/7. *)
Definition char_tokenize (text : str) : list N := text.

Definition uniform_head (ids : list N) : list EmotionScore :=
  map (fun l => {| label := l; score := (1 # 7)%Q |}) id2label.

(** A head whose scores depend on its input: 4/10 for anger on an even number
    of tokens, for joy on an odd number, 1/10 for every other label. *)
Definition parity_head (ids : list N) : list EmotionScore :=
  let favourite := if Nat.even (length ids) then "anger"%string else "joy"%string in
  map (fun l => {| label := l;
                   score := if String.eqb l favourite then (4 # 10)%Q else (1 # 10)%Q |})
    id2label.

(** ** Notions for the further properties *)

Definition no_capital_sigma (ch : N) : bool := negb (ch =? CAPITAL_SIGMA)%N.

(** The lower case of [ch] is not empty and is white space exactly when [ch]
    is. *)
Definition lower_keeps_class (tolower_full : N -> list N) (ch : N) : bool :=
  match tolower_full ch with
  | [] => false
  | d :: ds =>
      forallb (fun x => Bool.eqb (Py_UNICODE_ISSPACE x) (Py_UNICODE_ISSPACE ch))
        (d :: ds)
  end.

(** The number of words [str.split] finds in [s], one more when the scan is
    already inside a word. *)
Fixpoint count_words (in_word : bool) (s : str) : nat :=
  match s with
  | [] => if in_word then 1 else 0
  | c :: rest =>
      if Py_UNICODE_ISSPACE c
      then (if in_word then 1 else 0) + count_words false rest
      else count_words true rest
  end.

(** Lower case of an ASCII character. *)
Definition ascii_lower (ch : N) : N :=
  if in_range 0x41 0x5A ch then (ch + 32)%N else ch.

(** a to z, 0 to 9, underscore, space. *)
Definition is_clean_char (ch : N) : bool :=
  in_range 0x61 0x7A ch || in_range 0x30 0x39 ch || (ch =? UNDERSCORE)%N
  || (ch =? SPACE)%N.

(** The colors a card can have. *)
Definition palette : list string :=
  [ "#e74c3c"; "#3498db"; "#f1c40f"; "#2ecc71"; "#95a5a6" ]%string.

Definition fallback_color : string := "#95a5a6".

(** What a card shows besides the score. *)
Definition row (c : card) : string * string * string :=
  (card_label c, card_diagnosis c, card_color c).

(** The rows of the text page, and of the page of [Speech_Sentiment.py], for
    the labels of the model in the order of [id2label]. *)
Definition text_page_rows : list (string * string * string) :=
  [ ("anger", "Stress Markers", "#f1c40f");
    ("disgust", "Other", "#95a5a6");
    ("fear", "Anxiety Indicators", "#3498db");
    ("joy", "Other", "#95a5a6");
    ("neutral", "Baseline State", "#2ecc71");
    ("sadness", "Potential Depression", "#e74c3c");
    ("surprise", "Other", "#95a5a6") ]%string.

Definition speech_page_rows : list (string * string * string) :=
  [ ("anger", "Stress Level", "#f1c40f");
    ("disgust", "Neutral", "#95a5a6");
    ("fear", "Anxiety Signs", "#3498db");
    ("joy", "Neutral", "#95a5a6");
    ("neutral", "Baseline State", "#2ecc71");
    ("sadness", "Depression Risk", "#e74c3c");
    ("surprise", "Neutral", "#95a5a6") ]%string.

(** * Properties *)

(** ** Scanning and joining words *)

Lemma space_is_space : Py_UNICODE_ISSPACE SPACE = true.
Proof. reflexivity. Qed.

Lemma flush_tokens cur :
  forallb nonspace cur = true -> Forall (fun w => is_token w = true) (flush cur).
Proof.
  destruct cur as [|c cur]; simpl; intros H; constructor; [|constructor].
  assert (Hrev : forallb nonspace (rev (c :: cur)) = true).
  { apply forallb_forall. intros x Hx. apply in_rev in Hx.
    revert x Hx. apply forallb_forall. exact H. }
  simpl in Hrev |- *. destruct (rev cur ++ [c]) eqn:E; [|exact Hrev].
  destruct (rev cur); discriminate.
Qed.

Lemma split_from_tokens s : forall cur,
  forallb nonspace cur = true ->
  Forall (fun w => is_token w = true) (split_from cur s).
Proof.
  induction s as [|c rest IH]; intros cur Hcur; simpl.
  - now apply flush_tokens.
  - destruct (Py_UNICODE_ISSPACE c) eqn:Hc.
    + apply Forall_app. split; [now apply flush_tokens | now apply IH].
    + apply IH. simpl. unfold nonspace at 1. now rewrite Hc.
Qed.

Lemma split_tokens s : Forall (fun w => is_token w = true) (split s).
Proof. now apply split_from_tokens. Qed.

Lemma split_from_word w : forall cur rest,
  forallb nonspace w = true ->
  split_from cur (w ++ rest) = split_from (rev w ++ cur) rest.
Proof.
  induction w as [|c w IH]; intros cur rest H; simpl in *; [reflexivity|].
  apply andb_prop in H as [Hc Hw]. unfold nonspace in Hc.
  apply negb_true_iff in Hc. rewrite Hc, IH by exact Hw.
  now rewrite <- app_assoc.
Qed.

Lemma flush_rev_token w : is_token w = true -> flush (rev w) = [w].
Proof.
  destruct w as [|c w]; [discriminate|]. intros _. unfold flush.
  destruct (rev (c :: w)) eqn:E.
  - apply (f_equal (@length N)) in E. rewrite length_rev in E. discriminate.
  - now rewrite <- E, rev_involutive.
Qed.

Lemma is_token_nonspace w : is_token w = true -> forallb nonspace w = true.
Proof. destruct w; [discriminate | auto]. Qed.

(** Splitting what [' '.join] built gives the words back. *)
Lemma split_join ws :
  Forall (fun w => is_token w = true) ws -> split (join [SPACE] ws) = ws.
Proof.
  unfold split. induction 1 as [|w ws Hw Hws IH]; [reflexivity|].
  simpl. destruct ws as [|w' ws'].
  - pose proof (split_from_word w [] [] (is_token_nonspace w Hw)) as E.
    rewrite !app_nil_r in E. rewrite E. now apply flush_rev_token.
  - rewrite split_from_word by now apply is_token_nonspace.
    cbn [app split_from]. rewrite space_is_space, app_nil_r.
    rewrite flush_rev_token by exact Hw. simpl. f_equal. exact IH.
Qed.

Lemma split_from_spaces t : forall cur,
  forallb Py_UNICODE_ISSPACE t = true -> split_from cur t = flush cur.
Proof.
  induction t as [|c t IH]; intros cur H; simpl in *; [reflexivity|].
  apply andb_prop in H as [Hc Ht]. rewrite Hc, (IH [] Ht). simpl.
  apply app_nil_r.
Qed.

Lemma split_from_trailing a t : forall cur,
  forallb Py_UNICODE_ISSPACE t = true ->
  split_from cur (a ++ t) = split_from cur a.
Proof.
  induction a as [|c a IH]; intros cur H; simpl.
  - now apply split_from_spaces.
  - destruct (Py_UNICODE_ISSPACE c); [f_equal|]; now apply IH.
Qed.

Lemma drop_while_prefix p s :
  exists pre, forallb p pre = true /\ s = pre ++ drop_while p s.
Proof.
  induction s as [|c s [pre [Hpre Hs]]]; simpl.
  - now exists [].
  - destruct (p c) eqn:Hc.
    + exists (c :: pre). simpl. rewrite Hc, Hpre. split; [reflexivity|].
      now f_equal.
    + now exists [].
Qed.

Lemma split_lstrip s : split (lstrip s) = split s.
Proof.
  unfold split, lstrip. induction s as [|c s IH]; simpl; [reflexivity|].
  destruct (Py_UNICODE_ISSPACE c) eqn:Hc; [exact IH|].
  simpl. now rewrite Hc.
Qed.

Lemma forallb_rev (p : N -> bool) l : forallb p l = true -> forallb p (rev l) = true.
Proof.
  intros H. apply forallb_forall. intros x Hx. apply in_rev in Hx.
  revert x Hx. now apply forallb_forall.
Qed.

Lemma split_rstrip s : split (rstrip s) = split s.
Proof.
  unfold split, rstrip.
  destruct (drop_while_prefix Py_UNICODE_ISSPACE (rev s)) as [pre [Hpre Hs]].
  apply (f_equal (@rev N)) in Hs. rewrite rev_involutive, rev_app_distr in Hs.
  rewrite Hs at 2. symmetry. apply split_from_trailing. now apply forallb_rev.
Qed.

(** [str.strip] does not change what [str.split] finds. *)
Lemma split_strip s : split (strip s) = split s.
Proof. unfold strip. now rewrite split_rstrip, split_lstrip. Qed.

(** ** Lengths and characters of joined words *)

Lemma length_join_cons sep w ws :
  length (join sep (w :: ws)) =
  length w + match ws with [] => 0 | _ :: _ => length sep + length (join sep ws) end.
Proof.
  destruct ws as [|w' ws']; cbn [join]; [lia|]. now rewrite !length_app.
Qed.

Lemma length_join_filter sep (p : str -> bool) ws :
  length (join sep (List.filter p ws)) <= length (join sep ws).
Proof.
  induction ws as [|w ws IH]; [reflexivity|].
  cbn [List.filter]. destruct (p w).
  - rewrite !length_join_cons. destruct ws as [|w' ws'].
    + simpl. lia.
    + destruct (List.filter p (w' :: ws')); lia.
  - rewrite length_join_cons. destruct ws as [|w' ws']; [simpl in *; lia | lia].
Qed.

Lemma length_join_split_from s : forall cur,
  length (join [SPACE] (split_from cur s)) <= length cur + length s.
Proof.
  induction s as [|c rest IH]; intros cur; cbn [split_from].
  - destruct cur as [|x cur]; [simpl; lia|]. cbn [flush join].
    rewrite length_rev. lia.
  - destruct (Py_UNICODE_ISSPACE c).
    + specialize (IH []). destruct cur as [|x cur]; [simpl in *; lia|].
      cbn [flush app]. rewrite length_join_cons, length_rev.
      destruct (split_from [] rest); simpl in *; lia.
    + specialize (IH (c :: cur)). simpl in *. lia.
Qed.

Lemma in_flush c w cur : In w (flush cur) -> In c w -> In c cur.
Proof.
  destruct cur as [|x cur]; [intros []|]. intros [<-|[]] Hc.
  now apply in_rev in Hc.
Qed.

(** Every character of a word found by the scan is a non-space character of
    the scanned text. *)
Lemma in_split_from c w s : forall cur,
  In w (split_from cur s) -> In c w -> In c cur \/ In c s.
Proof.
  induction s as [|x rest IH]; intros cur Hw Hc; cbn [split_from] in Hw.
  - left. eapply in_flush; eassumption.
  - destruct (Py_UNICODE_ISSPACE x).
    + apply in_app_or in Hw as [Hw|Hw].
      * left. eapply in_flush; eassumption.
      * destruct (IH [] Hw Hc) as [[]|H]. right. now right.
    + destruct (IH (x :: cur) Hw Hc) as [[<-|H]|H]; [right; now left | now left |].
      right. now right.
Qed.

Lemma in_join c sep ws :
  In c (join sep ws) -> In c sep \/ exists w, In w ws /\ In c w.
Proof.
  induction ws as [|w ws IH]; [intros []|]. cbn [join].
  destruct ws as [|w' ws'].
  - intros H. right. exists w. split; [now left | exact H].
  - intros H. apply in_app_or in H as [H|H].
    + right. exists w. split; [now left | exact H].
    + apply in_app_or in H as [H|H]; [now left|].
      destruct (IH H) as [Hs|[v [Hv Hc]]]; [now left|].
      right. exists v. split; [now right | exact Hc].
Qed.

Lemma filter_all {A} (p : A -> bool) l : forallb p l = true -> List.filter p l = l.
Proof.
  induction l as [|x l IH]; simpl; [reflexivity|]. intros H.
  apply andb_prop in H as [Hx Hl]. rewrite Hx. f_equal. now apply IH.
Qed.

Lemma filter_filter {A} (p : A -> bool) l :
  List.filter p (List.filter p l) = List.filter p l.
Proof.
  apply filter_all, forallb_forall. intros x Hx. now apply filter_In in Hx.
Qed.

Lemma Forall_list_filter {A} (P : A -> Prop) (p : A -> bool) l :
  Forall P l -> Forall P (List.filter p l).
Proof.
  rewrite !List.Forall_forall. intros H x Hx. apply filter_In in Hx. now apply H.
Qed.

Lemma list_filter_sublist {A} (p : A -> bool) l : sublist (List.filter p l) l.
Proof.
  induction l as [|x l IH]; simpl; [constructor|].
  destruct (p x); now constructor.
Qed.

Lemma drop_while_length p s : length (drop_while p s) <= length s.
Proof.
  induction s as [|c s IH]; simpl; [lia|]. destruct (p c); simpl; lia.
Qed.

(** ** The normaliser, for any Unicode tables and stop-word list *)

Section NormalizerFacts.

Variable isalnum : N -> bool.
Variable tolower_full : N -> list N.
Variable final_sigma : str -> str -> bool.
Variable stopwords : list str.

Abbreviation kept := (kept isalnum).
Abbreviation re_sub_nonword := (re_sub_nonword isalnum).
Abbreviation lower := (lower tolower_full final_sigma).
Abbreviation lower_from := (lower_from tolower_full final_sigma).
Abbreviation not_stopword := (not_stopword stopwords).
Abbreviation clean_text := (clean_text isalnum tolower_full final_sigma stopwords).
Abbreviation lower_fixed := (lower_fixed tolower_full).
Abbreviation lower_short := (lower_short tolower_full).
Abbreviation stable := (stable isalnum tolower_full).

(** The words of the output are the words of the lower-cased, regex-stripped
    text that are no stop words. *)
Lemma clean_text_tokens text :
  split (clean_text text) =
  List.filter not_stopword (split (lower (re_sub_nonword text))).
Proof.
  unfold clean_text. rewrite split_join, split_strip; [reflexivity|].
  apply Forall_list_filter, split_tokens.
Qed.

Lemma clean_text_join text :
  clean_text text = join [SPACE] (split (clean_text text)).
Proof.
  rewrite clean_text_tokens. unfold clean_text.
  now rewrite split_strip.
Qed.

(** No word of the output is a stop word. *)
Lemma clean_text_no_stopword text :
  Forall (fun w => contains stopwords w = false) (split (clean_text text)).
Proof.
  rewrite clean_text_tokens. apply List.Forall_forall. intros w Hw.
  apply filter_In in Hw as [_ Hw]. unfold not_stopword in Hw.
  now apply negb_true_iff in Hw.
Qed.

(** A character of the output is the joining space or a character of the
    lower-cased, regex-stripped text. *)
Lemma clean_text_chars text c :
  In c (clean_text text) -> c = SPACE \/ In c (lower (re_sub_nonword text)).
Proof.
  rewrite clean_text_join, clean_text_tokens. intros H.
  apply in_join in H as [[<-|[]]|[w [Hw Hc]]]; [now left|].
  apply filter_In in Hw as [Hw _].
  destruct (in_split_from c w _ [] Hw Hc) as [[]|H]. now right.
Qed.

Lemma clean_text_length_lower text :
  length (clean_text text) <= length (lower (re_sub_nonword text)).
Proof.
  unfold clean_text. rewrite split_strip.
  etransitivity; [apply length_join_filter|].
  apply (length_join_split_from _ []).
Qed.

Lemma lower_from_fixed s : forall before,
  forallb lower_fixed s = true -> lower_from before s = s.
Proof.
  induction s as [|c rest IH]; intros before H; simpl in *; [reflexivity|].
  apply andb_prop in H as [Hc Hrest]. unfold lower_fixed in Hc.
  apply andb_prop in Hc as [Hsig Heq]. apply negb_true_iff in Hsig.
  apply bool_decide_eq_true in Heq. unfold lower_ucs4.
  rewrite Hsig, Heq. simpl. f_equal. now apply IH.
Qed.

Lemma lower_from_length s : forall before,
  forallb lower_short s = true -> length (lower_from before s) <= length s.
Proof.
  induction s as [|c rest IH]; intros before H; simpl in *; [lia|].
  apply andb_prop in H as [Hc Hrest]. rewrite length_app.
  specialize (IH (c :: before) Hrest). unfold lower_ucs4.
  destruct (c =? CAPITAL_SIGMA)%N; [simpl; lia|].
  unfold lower_short in Hc. apply Nat.leb_le in Hc. lia.
Qed.

Lemma forallb_weaken (p q : N -> bool) l :
  (forall c, p c = true -> q c = true) -> forallb p l = true -> forallb q l = true.
Proof.
  rewrite !forallb_forall. intros Hpq H x Hx. now apply Hpq, H.
Qed.

Lemma list_filter_length {A} (p : A -> bool) l : length (List.filter p l) <= length l.
Proof.
  induction l as [|x l IH]; simpl; [lia|]. destruct (p x); simpl; lia.
Qed.

Lemma forallb_list_filter (p q : N -> bool) l :
  forallb p l = true -> forallb p (List.filter q l) = true.
Proof.
  rewrite !forallb_forall. intros H x Hx. apply filter_In in Hx. now apply H.
Qed.

(** C4 (amended): the words of [clean_text text] are, in their order, words of
    the lower-cased text from which the regex has removed every character that
    is neither a word character nor white space: exactly those that are no
    stop words.  They need not be words of [text] itself, and none need be
    left out. *)
Theorem clean_text_tokens_subsequence (text : str) :
  split (clean_text text)
  = List.filter not_stopword (split (lower (re_sub_nonword text)))
  /\ sublist (split (clean_text text)) (split (lower (re_sub_nonword text))).
Proof.
  rewrite clean_text_tokens. split; [reflexivity|]. apply list_filter_sublist.
Qed.

(** C5 (amended): [clean_text] is idempotent on every text whose cleaned form
    has only characters that the regex keeps and that [str.lower] leaves
    unchanged (so on every ASCII text). *)
Theorem clean_text_idempotent (text : str) :
  forallb stable (clean_text text) = true ->
  clean_text (clean_text text) = clean_text text.
Proof.
  intros H. set (out := clean_text text) in *.
  assert (Hkept : re_sub_nonword out = out).
  { apply filter_all. eapply forallb_weaken; [|exact H].
    intros c Hc. unfold stable in Hc. now apply andb_prop in Hc as [Hc _]. }
  assert (Hlow : lower out = out).
  { apply lower_from_fixed. eapply forallb_weaken; [|exact H].
    intros c Hc. unfold stable in Hc. now apply andb_prop in Hc as [_ Hc]. }
  unfold clean_text at 1. rewrite Hkept, Hlow, split_strip.
  subst out. rewrite clean_text_tokens, filter_filter, <- clean_text_tokens.
  symmetry. apply clean_text_join.
Qed.

(** C9 (amended): [clean_text] is total, and its result is no longer than the
    text when no character of the text has a lower case of more than one code
    point. *)
Theorem clean_text_length (text : str) :
  forallb lower_short text = true ->
  length (clean_text text) <= length text.
Proof.
  intros H. etransitivity; [apply clean_text_length_lower|].
  etransitivity; [apply lower_from_length, forallb_list_filter, H|].
  apply list_filter_length.
Qed.

End NormalizerFacts.

(** ** [clean_text] on concrete texts *)

(** C3 (as stated, refuted): the cleaned form of "I feel hopeless and empty"
    is not the lower-cased input. *)
Lemma hopeless_not_just_lowercased :
  py_clean_text hopeless <> lower ucd_tolower_full ucd_final_sigma hopeless.
Proof. vm_compute. discriminate. Qed.

(** C3 (amended): on "I feel hopeless and empty" the regex strips nothing,
    lower-casing gives "i feel hopeless and empty", the stop words "i" and
    "and" are dropped, so the cleaned text is "feel hopeless empty"; the text
    page maps the label sadness to "Potential Depression". *)
Theorem hopeless_scenario :
  re_sub_nonword ucd_isalnum hopeless = hopeless
  /\ lower ucd_tolower_full ucd_final_sigma hopeless = py "i feel hopeless and empty"
  /\ py_clean_text hopeless = py "feel hopeless empty"
  /\ forall score,
       card_diagnosis (TextAnalysis.render {| label := "sadness"; score := score |})
       = "Potential Depression"%string.
Proof.
  split; [|split; [|split]]; [vm_compute; reflexivity.. |].
  intros score. vm_compute. reflexivity.
Qed.

(** C4 (as stated, refuted): "Hello" is cleaned to "hello", which is no word
    of the input. *)
Lemma hello_tokens_not_subset :
  ~ (forall text, ordered_strict_subset (split (py_clean_text text)) (split text)).
Proof.
  intros H. destruct (H (py "Hello")) as [Hsub _].
  apply sublist_cons_l in Hsub as (k1 & k2 & Hk & _).
  vm_compute in Hk. destruct k1 as [|x [|y k1]]; discriminate.
Qed.

(** C5 (as stated, refuted): U+0130 is cleaned to "i" followed by U+0307, and
    cleaning that again removes U+0307 and then the stop word "i". *)
Lemma dotted_I_not_idempotent :
  py_clean_text (py_clean_text dotted_I) <> py_clean_text dotted_I.
Proof. vm_compute. discriminate. Qed.

(** C9 (as stated, refuted): U+0130, one character, is cleaned to two. *)
Lemma dotted_I_grows :
  ~ (length (py_clean_text dotted_I) <= length dotted_I).
Proof. vm_compute. lia. Qed.

(** C6: the underscore, a punctuation character, goes through
    [clean_text]. *)
Theorem clean_text_keeps_underscore :
  py_clean_text (py "snake_case") = py "snake_case"
  /\ existsb is_punctuation (py_clean_text (py "snake_case")) = true.
Proof. split; vm_compute; reflexivity. Qed.

Lemma clean_text_tokens_subsequence_example :
  split (py_clean_text (py "Hello, it's me")) = [py "hello"].
Proof. vm_compute. reflexivity. Qed.

Lemma clean_text_idempotent_witness :
  forallb (stable ucd_isalnum ucd_tolower_full) (py_clean_text hopeless) = true
  /\ py_clean_text (py_clean_text hopeless) = py_clean_text hopeless.
Proof.
  split; [vm_compute; reflexivity|].
  apply (clean_text_idempotent ucd_isalnum ucd_tolower_full ucd_final_sigma
           nltk_english hopeless).
  vm_compute. reflexivity.
Defined.

Lemma clean_text_length_witness :
  forallb (lower_short ucd_tolower_full) hopeless = true
  /\ length (py_clean_text hopeless) <= length hopeless.
Proof.
  split; [vm_compute; reflexivity|].
  apply (clean_text_length ucd_isalnum ucd_tolower_full ucd_final_sigma
           nltk_english hopeless).
  vm_compute. reflexivity.
Defined.

(** ** ASCII text meets the side conditions *)

Lemma ascii_enumerated (P : N -> bool) :
  forallb P (map N.of_nat (seq 0 128)) = true ->
  forall ch, is_ascii ch = true -> P ch = true.
Proof.
  intros H ch Hch. apply N.ltb_lt in Hch.
  rewrite forallb_forall in H. apply H.
  rewrite <- (N2Nat.id ch). apply in_map, in_seq. lia.
Qed.

Lemma in_lower_from tolower_full final_sigma c s : forall before,
  In c (lower_from tolower_full final_sigma before s) ->
  exists x b a, In x s /\ In c (lower_ucs4 tolower_full final_sigma b x a).
Proof.
  induction s as [|x rest IH]; intros before H; simpl in H; [destruct H|].
  apply in_app_or in H as [H|H].
  - exists x, before, rest. split; [now left | exact H].
  - destruct (IH _ H) as (y & b & a & Hy & Hc).
    exists y, b, a. split; [now right | exact Hc].
Qed.

Lemma ascii_lower_ucs4 before ch after :
  is_ascii ch = true ->
  lower_ucs4 ucd_tolower_full ucd_final_sigma before ch after = ucd_tolower_full ch.
Proof.
  intros H. apply N.ltb_lt in H. unfold lower_ucs4.
  replace (ch =? CAPITAL_SIGMA)%N with false; [reflexivity|].
  symmetry. apply N.eqb_neq. unfold CAPITAL_SIGMA. lia.
Qed.

(** On ASCII text the cleaned form is made of characters that the regex and
    [str.lower] leave alone. *)
Lemma ascii_clean_text_stable text :
  forallb is_ascii text = true ->
  forallb (stable ucd_isalnum ucd_tolower_full) (py_clean_text text) = true.
Proof.
  intros Hascii. apply forallb_forall. intros c Hc.
  apply clean_text_chars in Hc as [->|Hc]; [reflexivity|].
  apply in_lower_from in Hc as (x & b & a & Hx & Hc).
  apply filter_In in Hx as [Hx Hkept].
  assert (Hxa : is_ascii x = true).
  { rewrite forallb_forall in Hascii. now apply Hascii. }
  rewrite ascii_lower_ucs4 in Hc by exact Hxa.
  pose proof (ascii_enumerated
    (fun x => implb (kept ucd_isalnum x)
                (forallb (stable ucd_isalnum ucd_tolower_full) (ucd_tolower_full x)))
    eq_refl x Hxa) as E.
  cbv beta in E. rewrite Hkept in E. simpl in E.
  revert c Hc. now apply forallb_forall.
Qed.

(** No ASCII character has a lower case of more than one code point. *)
Lemma ascii_lower_short text :
  forallb is_ascii text = true -> forallb (lower_short ucd_tolower_full) text = true.
Proof.
  apply forallb_weaken, (ascii_enumerated (lower_short ucd_tolower_full)).
  vm_compute. reflexivity.
Qed.

(** ** The classifier calls *)

Lemma length_firstn_le {A} n (l : list A) : length (firstn n l) <= n.
Proof. rewrite length_firstn. lia. Qed.

(** C1: the text pages hand at most 512 tokens to the model, while the speech
    pages hand it every token of the transcript, however many there are. *)
Theorem speech_transcript_not_truncated
    (tokenize : str -> list N) (forward : list N -> list EmotionScore)
    (cleaned_text transcript : str) :
  length (encode tokenize TextAnalysis.call_kw cleaned_text) <= 512
  /\ length (encode tokenize SpeechText.text_call_kw cleaned_text) <= 512
  /\ SpeechText.speech_predictions tokenize forward transcript
     = Some (AllScores (forward (tokenize transcript)))
  /\ SpeechSentiment.predictions tokenize forward transcript
     = Some (AllScores (forward (tokenize transcript)))
  /\ SpeechTextSentiment.emotions tokenize forward transcript
     = TopScore <$> argmax (forward (tokenize transcript)).
Proof.
  repeat split; try reflexivity; apply length_firstn_le.
Qed.

(** A transcript of 600 characters reaches the model whole in speech mode;
    the same text is cut to 512 tokens in text mode. *)
Lemma long_transcript_example :
  let transcript := repeat 0x61%N 600 in
  length (encode char_tokenize no_kwargs transcript) = 600
  /\ length (encode char_tokenize SpeechText.text_call_kw transcript) = 512.
Proof. split; vm_compute; reflexivity. Qed.

Lemma argmax_some scores :
  scores <> [] ->
  exists best, argmax scores = Some best /\ In best scores
    /\ Forall (fun e => Qle_bool (score e) (score best) = true) scores.
Proof.
  induction scores as [|x rest IH]; [congruence|]. intros _. simpl.
  destruct rest as [|y rest'].
  - exists x. simpl. split; [reflexivity|]. split; [now left|].
    constructor; [|constructor]. apply Qle_bool_iff, Qle_refl.
  - destruct IH as (b & Hb & Hin & Hmax); [congruence|]. rewrite Hb.
    destruct (Qle_bool (score b) (score x)) eqn:E.
    + exists x. split; [reflexivity|]. split; [now left|].
      constructor; [apply Qle_bool_iff, Qle_refl|].
      eapply List.Forall_impl; [|exact Hmax]. intros e He. simpl in He.
      apply Qle_bool_iff. apply Qle_bool_iff in He, E. eapply Qle_trans; eassumption.
    + exists b. split; [reflexivity|]. split; [now right|].
      constructor; [|exact Hmax]. apply Qle_bool_iff, Qlt_le_weak, Qnot_le_lt.
      intros H. apply Qle_bool_iff in H. congruence.
Qed.






(** The head sees the transcript itself on the speech page and the cleaned
    text on the text page: with one token per character, "so tired" has eight
    tokens as a transcript and five once cleaned to "tired". *)
Lemma parity_head_example :
  SpeechSentiment.predictions char_tokenize parity_head (py "so tired")
  = Some (AllScores (parity_head (repeat 0%N 8)))
  /\ TextAnalysis.predictions ucd_isalnum ucd_tolower_full ucd_final_sigma
       nltk_english char_tokenize parity_head (py "so tired")
     = Some (AllScores (parity_head (repeat 0%N 5))).
Proof. split; vm_compute; reflexivity. Qed.

(** ** The risk mapping *)

Lemma mapped_labels_cases (l : string) :
  bool_decide (l ∈ mapped_labels) = false ->
  l <> "sadness"%string /\ l <> "fear"%string
  /\ l <> "anger"%string /\ l <> "neutral"%string.
Proof.
  intros H. apply bool_decide_eq_false in H. unfold mapped_labels in H.
  repeat split; intros ->; apply H; set_solver.
Qed.

Lemma unmapped_lookup {V} (l : string) (a b c d : V) :
  bool_decide (l ∈ mapped_labels) = false ->
  (list_to_map [ ("sadness"%string, a); ("fear"%string, b);
                 ("anger"%string, c); ("neutral"%string, d) ]
     : gmap string V) !! l = None.
Proof.
  intros H. destruct (mapped_labels_cases l H) as (H1 & H2 & H3 & H4).
  cbn [list_to_map foldr uncurry fst snd].
  rewrite !lookup_insert_ne by congruence. apply lookup_empty.
Qed.

(** C7: every page's lookup is total.  A label with an entry gets that entry,
    any other label gets the fallback: ("Other", "#95a5a6") on the pages of
    [Text Analysis/Text_Sentiment.py] and [speech-text.py],
    ("Neutral", "#95a5a6") on the page of [Speech_Sentiment.py]. *)
Theorem risk_mapping_total (l : string) (q : Q) :
  let pred := {| label := l; score := q |} in
  if bool_decide (l ∈ mapped_labels)
  then TextAnalysis.health_map !! l = Some (risk (TextAnalysis.render pred))
       /\ SpeechText.health_map_text !! l
          = Some (risk (SpeechText.render_with SpeechText.health_map_text pred))
       /\ SpeechText.health_map_speech !! l
          = Some (risk (SpeechText.render_with SpeechText.health_map_speech pred))
       /\ SpeechSentiment.health_map !! l
          = Some (card_color (SpeechSentiment.render pred),
                  card_diagnosis (SpeechSentiment.render pred))
  else risk (TextAnalysis.render pred) = ("Other", "#95a5a6")%string
       /\ risk (SpeechText.render_with SpeechText.health_map_text pred)
          = ("Other", "#95a5a6")%string
       /\ risk (SpeechText.render_with SpeechText.health_map_speech pred)
          = ("Other", "#95a5a6")%string
       /\ risk (SpeechSentiment.render pred) = ("Neutral", "#95a5a6")%string.
Proof.
  intros pred. subst pred. destruct (bool_decide (l ∈ mapped_labels)) eqn:E.
  - apply bool_decide_eq_true in E. unfold mapped_labels in E.
    repeat (apply elem_of_cons in E as [->|E]; [repeat split; reflexivity|]).
    now apply elem_of_nil in E.
  - unfold TextAnalysis.render, SpeechText.render_with, SpeechSentiment.render,
      dict_get, TextAnalysis.health_map, SpeechText.health_map_text,
      SpeechText.health_map_speech, SpeechSentiment.health_map.
    cbn [label score]. rewrite !unmapped_lookup by exact E.
    repeat split; reflexivity.
Qed.

(** C10: the card's diagnosis and color depend on the label of a prediction
    only, not on its score. *)
Theorem risk_independent_of_score (p1 p2 : EmotionScore) :
  label p1 = label p2 ->
  risk (TextAnalysis.render p1) = risk (TextAnalysis.render p2)
  /\ risk (SpeechText.render_with SpeechText.health_map_text p1)
     = risk (SpeechText.render_with SpeechText.health_map_text p2)
  /\ risk (SpeechText.render_with SpeechText.health_map_speech p1)
     = risk (SpeechText.render_with SpeechText.health_map_speech p2)
  /\ risk (SpeechSentiment.render p1) = risk (SpeechSentiment.render p2).
Proof.
  intros H. unfold TextAnalysis.render, SpeechText.render_with,
    SpeechSentiment.render, risk. rewrite H.
  repeat split;
    match goal with |- context [dict_get ?m ?k ?d] => destruct (dict_get m k d) end;
    reflexivity.
Qed.

Lemma risk_independent_of_score_witness :
  let p1 := {| label := "sadness"; score := (9 # 10)%Q |} in
  let p2 := {| label := "sadness"; score := (1 # 10)%Q |} in
  label p1 = label p2
  /\ risk (TextAnalysis.render p1) = risk (TextAnalysis.render p2)
  /\ risk (SpeechSentiment.render p1) = risk (SpeechSentiment.render p2).
Proof.
  intros p1 p2. split; [reflexivity|].
  destruct (risk_independent_of_score p1 p2 eq_refl) as (H1 & _ & _ & H4).
  split; [exact H1 | exact H4].
Defined.

(** * Further properties of the code *)

(** ** The shape of the cleaned text *)

Lemma join_tokens_ends ws :
  Forall (fun w => is_token w = true) ws -> ws <> [] ->
  (exists c r, join [SPACE] ws = c :: r /\ nonspace c = true)
  /\ (exists c r, join [SPACE] ws = r ++ [c] /\ nonspace c = true).
Proof.
  induction 1 as [|w ws Hw Hws IH]; [congruence|]. intros _.
  destruct w as [|c w0]; [discriminate|].
  pose proof (is_token_nonspace _ Hw) as Hall. split.
  - exists c. cbn [join]. destruct ws; [exists w0 | eexists]; simpl in *;
      (split; [reflexivity|]); now apply andb_prop in Hall as [Hc _].
  - cbn [join]. destruct ws as [|w' ws'].
    + destruct (exists_last (l := c :: w0)) as (r & d & E); [congruence|].
      exists d, r. split; [exact E|].
      rewrite forallb_forall in Hall. apply Hall. rewrite E.
      apply in_or_app. right. now left.
    + destruct IH as [_ (d & r & E & Hd)]; [congruence|].
      exists d, ((c :: w0) ++ [SPACE] ++ r). split; [|exact Hd].
      rewrite E. now rewrite <- !app_assoc.
Qed.

Lemma lstrip_nonspace c r : nonspace c = true -> lstrip (c :: r) = c :: r.
Proof.
  unfold nonspace, lstrip. intros H. apply negb_true_iff in H. simpl.
  now rewrite H.
Qed.

Lemma rstrip_nonspace c r : nonspace c = true -> rstrip (r ++ [c]) = r ++ [c].
Proof.
  unfold nonspace, rstrip. intros H. apply negb_true_iff in H.
  rewrite rev_app_distr. simpl. rewrite H. simpl. now rewrite rev_involutive.
Qed.

Lemma strip_join_tokens ws :
  Forall (fun w => is_token w = true) ws ->
  strip (join [SPACE] ws) = join [SPACE] ws.
Proof.
  intros H. destruct ws as [|w ws]; [reflexivity|].
  destruct (join_tokens_ends (w :: ws) H) as [(c & r & E & Hc) (d & r' & E' & Hd)];
    [congruence|].
  unfold strip. rewrite E, lstrip_nonspace by exact Hc.
  rewrite <- E, E'. now apply rstrip_nonspace.
Qed.

Lemma join_tokens_spaces ws c :
  Forall (fun w => is_token w = true) ws ->
  In c (join [SPACE] ws) -> Py_UNICODE_ISSPACE c = true -> c = SPACE.
Proof.
  intros Hws Hc Hsp. apply in_join in Hc as [[<-|[]]|(w & Hw & Hc)]; [reflexivity|].
  rewrite List.Forall_forall in Hws. apply Hws, is_token_nonspace in Hw.
  rewrite forallb_forall in Hw. apply Hw in Hc. unfold nonspace in Hc.
  rewrite Hsp in Hc. discriminate.
Qed.

Lemma filter_not_stopword_nil stopwords ws :
  List.filter (not_stopword stopwords) ws = []
  <-> forallb (contains stopwords) ws = true.
Proof.
  induction ws as [|w ws IH]; simpl; [tauto|]. unfold not_stopword at 1.
  destruct (contains stopwords w); simpl.
  - exact IH.
  - split; discriminate.
Qed.

Lemma join_nil_tokens ws :
  Forall (fun w => is_token w = true) ws -> join [SPACE] ws = [] -> ws = [].
Proof.
  intros H E. destruct ws as [|w ws]; [reflexivity|].
  destruct (join_tokens_ends _ H) as [(c & r & E' & _) _]; congruence.
Qed.

Section NormalizerShape.

Variable isalnum : N -> bool.
Variable tolower_full : N -> list N.
Variable final_sigma : str -> str -> bool.
Variable stopwords : list str.

Abbreviation re_sub_nonword := (re_sub_nonword isalnum).
Abbreviation lower := (lower tolower_full final_sigma).
Abbreviation not_stopword := (not_stopword stopwords).
Abbreviation clean_text := (clean_text isalnum tolower_full final_sigma stopwords).

Lemma clean_text_token_list text :
  Forall (fun w => is_token w = true) (split (clean_text text)).
Proof. apply split_tokens. Qed.

(** The cleaned text is empty exactly when every word of the lower-cased,
    regex-stripped text is a stop word (in particular when that text has no
    word at all). *)
Theorem clean_text_empty_iff (text : str) :
  clean_text text = []
  <-> forallb (contains stopwords) (split (lower (re_sub_nonword text))) = true.
Proof.
  rewrite <- filter_not_stopword_nil, <- clean_text_tokens. split.
  - now intros ->.
  - intros E. now rewrite clean_text_join, E.
Qed.

(** The cleaned text is in normal form: it has no white space at either end,
    its words are separated by exactly one space, so that splitting and
    joining gives it back, and it holds no white-space character other than
    U+0020 (tabs and line breaks of the input are gone). *)
Theorem clean_text_normal_form (text : str) :
  strip (clean_text text) = clean_text text
  /\ join [SPACE] (split (clean_text text)) = clean_text text
  /\ Forall (fun c => Py_UNICODE_ISSPACE c = true -> c = SPACE) (clean_text text).
Proof.
  pose proof (clean_text_token_list text) as Htok. repeat split.
  - rewrite clean_text_join. now apply strip_join_tokens.
  - symmetry. apply clean_text_join.
  - apply List.Forall_forall. intros c Hc. rewrite clean_text_join in Hc.
    eapply join_tokens_spaces; [exact Htok | exact Hc].
Qed.

End NormalizerShape.

(** ** Words are cleaned one by one *)

Lemma split_from_leading w s :
  forallb Py_UNICODE_ISSPACE w = true -> split_from [] (w ++ s) = split_from [] s.
Proof.
  induction w as [|c w IH]; simpl; [reflexivity|]. intros H.
  apply andb_prop in H as [Hc Hw]. rewrite Hc. simpl. now apply IH.
Qed.

(** [str.split] of two texts with white space between them. *)
Lemma split_from_gap x : forall cur w y,
  w <> [] -> forallb Py_UNICODE_ISSPACE w = true ->
  split_from cur (x ++ w ++ y) = split_from cur x ++ split y.
Proof.
  induction x as [|c x IH]; intros cur w y Hne Hw.
  - destruct w as [|d w]; [congruence|]. simpl in *.
    apply andb_prop in Hw as [Hd Hw]. rewrite Hd. f_equal.
    now apply split_from_leading.
  - cbn [app split_from]. destruct (Py_UNICODE_ISSPACE c).
    + rewrite <- app_assoc. f_equal. now apply IH.
    + now apply IH.
Qed.

Lemma sigma_not_space ch :
  Py_UNICODE_ISSPACE ch = true -> no_capital_sigma ch = true.
Proof.
  intros H. unfold no_capital_sigma. destruct (ch =? CAPITAL_SIGMA)%N eqn:E; [|reflexivity].
  apply N.eqb_eq in E. subst ch. discriminate.
Qed.

Lemma list_filter_app {A} (p : A -> bool) l1 l2 :
  List.filter p (l1 ++ l2) = List.filter p l1 ++ List.filter p l2.
Proof.
  induction l1 as [|x l1 IH]; simpl; [reflexivity|].
  destruct (p x); simpl; now rewrite IH.
Qed.

(** ** Counting words *)

Lemma length_split_from s : forall cur,
  length (split_from cur s)
  = count_words (match cur with [] => false | _ :: _ => true end) s.
Proof.
  induction s as [|c s IH]; intros cur; simpl.
  - now destruct cur.
  - destruct (Py_UNICODE_ISSPACE c).
    + rewrite length_app, (IH []). now destruct cur.
    + now rewrite (IH (c :: cur)).
Qed.

Lemma length_split s : length (split s) = count_words false s.
Proof. apply (length_split_from s []). Qed.

Lemma count_words_in_word s :
  count_words false s <= count_words true s
  /\ count_words true s <= 1 + count_words false s.
Proof.
  destruct s as [|c s]; simpl; [lia|]. destruct (Py_UNICODE_ISSPACE c); lia.
Qed.

Lemma count_words_le b b' s :
  (b = true -> b' = true) -> count_words b s <= count_words b' s.
Proof.
  pose proof (count_words_in_word s) as Hs. destruct b, b'; intros H; try lia.
  all: try (specialize (H eq_refl); discriminate).
Qed.

(** Removing characters that are no white space cannot add words. *)
Lemma count_words_filter (p : N -> bool) s : forall b,
  (forall c, Py_UNICODE_ISSPACE c = true -> p c = true) ->
  count_words b (List.filter p s) <= count_words b s.
Proof.
  induction s as [|c s IH]; intros b Hp; simpl; [lia|].
  destruct (Py_UNICODE_ISSPACE c) eqn:Hc.
  - rewrite (Hp c Hc). simpl. rewrite Hc. specialize (IH false Hp). lia.
  - destruct (p c); simpl.
    + rewrite Hc. now apply IH.
    + etransitivity; [apply (IH b Hp)|]. apply count_words_le. reflexivity.
Qed.

Lemma count_words_nonspace w s b :
  w <> [] -> forallb nonspace w = true ->
  count_words b (w ++ s) = count_words true s.
Proof.
  revert b. induction w as [|c w IH]; intros b Hne H; [congruence|].
  simpl in *. apply andb_prop in H as [Hc Hw]. unfold nonspace in Hc.
  apply negb_true_iff in Hc. rewrite Hc.
  destruct w as [|d w]; [reflexivity|]. now apply IH.
Qed.

Lemma count_words_space w s b :
  w <> [] -> forallb Py_UNICODE_ISSPACE w = true ->
  count_words b (w ++ s) = (if b then 1 else 0) + count_words false s.
Proof.
  revert b. induction w as [|c w IH]; intros b Hne H; [congruence|].
  simpl in *. apply andb_prop in H as [Hc Hw]. rewrite Hc.
  destruct w as [|d w]; [reflexivity|]. rewrite IH by (congruence || exact Hw).
  reflexivity.
Qed.

Section NormalizerWords.

Variable isalnum : N -> bool.
Variable tolower_full : N -> list N.
Variable final_sigma : str -> str -> bool.
Variable stopwords : list str.

Abbreviation kept := (kept isalnum).
Abbreviation re_sub_nonword := (re_sub_nonword isalnum).
Abbreviation lower := (lower tolower_full final_sigma).
Abbreviation lower_from := (lower_from tolower_full final_sigma).
Abbreviation lower_ucs4 := (lower_ucs4 tolower_full final_sigma).
Abbreviation not_stopword := (not_stopword stopwords).
Abbreviation clean_text := (clean_text isalnum tolower_full final_sigma stopwords).
Abbreviation lower_keeps_class := (lower_keeps_class tolower_full).

(** Without a capital sigma [str.lower] works character by character. *)
Lemma lower_from_no_sigma s : forall before,
  forallb no_capital_sigma s = true ->
  lower_from before s = flat_map tolower_full s.
Proof.
  induction s as [|c s IH]; intros before H; simpl in *; [reflexivity|].
  apply andb_prop in H as [Hc Hs]. unfold no_capital_sigma in Hc.
  apply negb_true_iff in Hc. unfold lower_ucs4. rewrite Hc.
  f_equal. now apply IH.
Qed.

Lemma keeps_class_space sp :
  Py_UNICODE_ISSPACE sp = true -> lower_keeps_class sp = true ->
  tolower_full sp <> [] /\ forallb Py_UNICODE_ISSPACE (tolower_full sp) = true.
Proof.
  unfold lower_keeps_class. intros Hsp H.
  destruct (tolower_full sp) as [|d ds]; [discriminate|]. split; [congruence|].
  eapply forallb_weaken; [|exact H]. intros x Hx. cbv beta in Hx.
  rewrite Hsp in Hx. now destruct (Py_UNICODE_ISSPACE x).
Qed.

Lemma keeps_class_nonspace c :
  Py_UNICODE_ISSPACE c = false -> lower_keeps_class c = true ->
  tolower_full c <> [] /\ forallb nonspace (tolower_full c) = true.
Proof.
  unfold lower_keeps_class. intros Hsp H.
  destruct (tolower_full c) as [|d ds]; [discriminate|]. split; [congruence|].
  eapply forallb_weaken; [|exact H]. intros x Hx. cbv beta in Hx.
  rewrite Hsp in Hx. unfold nonspace. now destruct (Py_UNICODE_ISSPACE x).
Qed.

(** Two texts with one white-space character between them are cleaned word
    by word: the words of the result are the words of the first cleaned text
    followed by those of the second.  (A capital sigma is set aside, its lower
    case depends on its neighbours.) *)
Theorem clean_text_app (a b : str) (sp : N) :
  Py_UNICODE_ISSPACE sp = true ->
  lower_keeps_class sp = true ->
  forallb no_capital_sigma (a ++ b) = true ->
  split (clean_text (a ++ sp :: b)) = split (clean_text a) ++ split (clean_text b)
  /\ clean_text (a ++ sp :: b)
     = join [SPACE] (split (clean_text a) ++ split (clean_text b)).
Proof.
  intros Hsp Hcls Hsig.
  assert (E : split (clean_text (a ++ sp :: b))
              = split (clean_text a) ++ split (clean_text b)).
  { rewrite forallb_app in Hsig. apply andb_prop in Hsig as [Ha Hb].
    destruct (keeps_class_space sp Hsp Hcls) as [Hne Hw].
    rewrite !clean_text_tokens. unfold re_sub_nonword.
    rewrite list_filter_app. cbn [List.filter].
    replace (kept sp) with true
      by (unfold kept; rewrite Hsp; now rewrite orb_true_r).
    unfold lower. rewrite !lower_from_no_sigma.
    - rewrite flat_map_app. cbn [flat_map]. unfold split.
      rewrite split_from_gap by assumption. apply list_filter_app.
    - now apply forallb_list_filter.
    - now apply forallb_list_filter.
    - rewrite forallb_app. cbn [forallb].
      rewrite (sigma_not_space sp Hsp), !forallb_list_filter by assumption.
      reflexivity. }
  split; [exact E|]. now rewrite clean_text_join, E.
Qed.

Lemma count_words_lower s : forall before b,
  forallb lower_keeps_class s = true ->
  count_words b (lower_from before s) <= count_words b s.
Proof.
  induction s as [|c s IH]; intros before b H; simpl in *; [lia|].
  apply andb_prop in H as [Hc Hs]. unfold lower_ucs4.
  destruct (c =? CAPITAL_SIGMA)%N eqn:Esig.
  - apply N.eqb_eq in Esig. subst c.
    replace (Py_UNICODE_ISSPACE CAPITAL_SIGMA) with false by reflexivity.
    rewrite count_words_nonspace;
      [now apply IH | congruence | now destruct (final_sigma before s)].
  - destruct (Py_UNICODE_ISSPACE c) eqn:Hsp.
    + destruct (keeps_class_space c Hsp Hc) as [Hne Hw].
      rewrite count_words_space by assumption.
      specialize (IH (c :: before) false Hs). lia.
    + destruct (keeps_class_nonspace c Hsp Hc) as [Hne Hw].
      rewrite count_words_nonspace by assumption. now apply IH.
Qed.

(** The "Processed Length" shown by [main_interface] is the number of words
    of the lower-cased, regex-stripped text that are no stop words, and it is
    never more than the number of words of the text typed in (for text whose
    characters keep their class, white space or not, under [str.lower]). *)
Theorem processed_length_le (text : str) :
  forallb lower_keeps_class text = true ->
  TextAnalysis.processed_length isalnum tolower_full final_sigma stopwords text
  = length (List.filter not_stopword (split (lower (re_sub_nonword text))))
  /\ TextAnalysis.processed_length isalnum tolower_full final_sigma stopwords text
     <= length (split text).
Proof.
  intros H. unfold TextAnalysis.processed_length. rewrite clean_text_tokens.
  split; [reflexivity|].
  etransitivity; [apply list_filter_length|]. rewrite !length_split.
  etransitivity; [apply count_words_lower, forallb_list_filter, H|].
  apply count_words_filter. intros c Hc. unfold kept.
  rewrite Hc. apply orb_true_r.
Qed.

End NormalizerWords.

Lemma clean_text_app_witness :
  Py_UNICODE_ISSPACE 0x0A%N = true
  /\ lower_keeps_class ucd_tolower_full 0x0A%N = true
  /\ forallb no_capital_sigma (py "I am so tired" ++ py "Nothing helps") = true
  /\ split (py_clean_text (py "I am so tired" ++ 0x0A%N :: py "Nothing helps"))
     = split (py_clean_text (py "I am so tired"))
       ++ split (py_clean_text (py "Nothing helps")).
Proof.
  split; [reflexivity|]. split; [reflexivity|]. split; [reflexivity|].
  apply (clean_text_app ucd_isalnum ucd_tolower_full ucd_final_sigma nltk_english
           (py "I am so tired") (py "Nothing helps") 0x0A%N); reflexivity.
Defined.

Lemma processed_length_le_witness :
  forallb (lower_keeps_class ucd_tolower_full) hopeless = true
  /\ TextAnalysis.processed_length ucd_isalnum ucd_tolower_full ucd_final_sigma
       nltk_english hopeless
     <= length (split hopeless).
Proof.
  split; [reflexivity|].
  apply (processed_length_le ucd_isalnum ucd_tolower_full ucd_final_sigma
           nltk_english hopeless).
  reflexivity.
Defined.

(** ** ASCII text *)

Lemma ascii_lower_from s : forall before,
  forallb is_ascii s = true ->
  lower_from ucd_tolower_full ucd_final_sigma before s = map ascii_lower s.
Proof.
  induction s as [|c s IH]; intros before H; simpl in *; [reflexivity|].
  apply andb_prop in H as [Hc Hs]. rewrite ascii_lower_ucs4 by exact Hc.
  rewrite IH by exact Hs.
  pose proof (ascii_enumerated
    (fun x => str_eqb (ucd_tolower_full x) [ascii_lower x]) eq_refl c Hc) as E.
  apply bool_decide_eq_true in E. now rewrite E.
Qed.

Lemma ascii_lower_facts ch :
  is_ascii ch = true ->
  is_ascii (ascii_lower ch) = true
  /\ kept ucd_isalnum (ascii_lower ch) = kept ucd_isalnum ch
  /\ ascii_lower (ascii_lower ch) = ascii_lower ch.
Proof.
  intros H.
  pose proof (ascii_enumerated
    (fun x => is_ascii (ascii_lower x)
              && Bool.eqb (kept ucd_isalnum (ascii_lower x)) (kept ucd_isalnum x)
              && (ascii_lower (ascii_lower x) =? ascii_lower x)%N) eq_refl ch H) as E.
  cbv beta in E. apply andb_prop in E as [E E3]. apply andb_prop in E as [E1 E2].
  repeat split; [exact E1 | now apply eqb_prop | now apply N.eqb_eq].
Qed.

Lemma ascii_filter_lower s :
  forallb is_ascii s = true ->
  List.filter (kept ucd_isalnum) (map ascii_lower s)
  = map ascii_lower (List.filter (kept ucd_isalnum) s).
Proof.
  induction s as [|c s IH]; simpl; [reflexivity|]. intros H.
  apply andb_prop in H as [Hc Hs].
  destruct (ascii_lower_facts c Hc) as (_ & -> & _).
  destruct (kept ucd_isalnum c); simpl; now rewrite IH.
Qed.

Lemma ascii_map_lower s :
  forallb is_ascii s = true ->
  forallb is_ascii (map ascii_lower s) = true
  /\ map ascii_lower (map ascii_lower s) = map ascii_lower s.
Proof.
  induction s as [|c s IH]; simpl; [auto|]. intros H.
  apply andb_prop in H as [Hc Hs]. destruct (IH Hs) as [IH1 IH2].
  destruct (ascii_lower_facts c Hc) as (-> & _ & ->). now rewrite IH1, IH2.
Qed.

(** On ASCII text the cleaning does not see the case of letters: a text and
    its lower case are cleaned to the same string. *)
Theorem ascii_clean_text_case (text : str) :
  forallb is_ascii text = true ->
  py_clean_text (lower ucd_tolower_full ucd_final_sigma text) = py_clean_text text.
Proof.
  intros H. unfold py_clean_text, clean_text. do 3 f_equal.
  unfold lower, re_sub_nonword.
  destruct (ascii_map_lower text H) as [Hl _].
  rewrite (ascii_lower_from text) by exact H.
  rewrite ascii_filter_lower by exact H.
  assert (Hf : forallb is_ascii (List.filter (kept ucd_isalnum) text) = true)
    by now apply forallb_list_filter.
  destruct (ascii_map_lower _ Hf) as [Hfl Hidem].
  rewrite !ascii_lower_from by assumption. f_equal. exact Hidem.
Qed.

Lemma ascii_clean_text_case_witness :
  forallb is_ascii hopeless = true
  /\ py_clean_text (lower ucd_tolower_full ucd_final_sigma hopeless)
     = py_clean_text hopeless.
Proof.
  split; [reflexivity|]. apply (ascii_clean_text_case hopeless). reflexivity.
Defined.

(** On ASCII text the cleaned text is written with the letters a to z, the
    digits, the underscore and the space only. *)
Theorem ascii_clean_text_alphabet (text : str) :
  forallb is_ascii text = true ->
  forallb is_clean_char (py_clean_text text) = true.
Proof.
  intros Hascii. apply forallb_forall. intros c Hc.
  destruct (Py_UNICODE_ISSPACE c) eqn:Hsp.
  - unfold py_clean_text in Hc. rewrite clean_text_join in Hc.
    rewrite (join_tokens_spaces _ c (split_tokens _) Hc Hsp). reflexivity.
  - apply clean_text_chars in Hc as [->|Hc]; [reflexivity|].
    apply in_lower_from in Hc as (x & b & a & Hx & Hc).
    apply filter_In in Hx as [Hx Hkept].
    assert (Hxa : is_ascii x = true).
    { rewrite forallb_forall in Hascii. now apply Hascii. }
    rewrite ascii_lower_ucs4 in Hc by exact Hxa.
    pose proof (ascii_enumerated
      (fun x => implb (kept ucd_isalnum x)
                  (forallb (fun d => Py_UNICODE_ISSPACE d || is_clean_char d)
                     (ucd_tolower_full x)))
      eq_refl x Hxa) as E.
    cbv beta in E. rewrite Hkept in E. simpl in E.
    rewrite forallb_forall in E. specialize (E c Hc). now rewrite Hsp in E.
Qed.

Lemma ascii_clean_text_alphabet_witness :
  forallb is_ascii (py "Can't sleep... AGAIN (3rd night)") = true
  /\ forallb is_clean_char (py_clean_text (py "Can't sleep... AGAIN (3rd night)"))
     = true.
Proof.
  split; [reflexivity|].
  apply (ascii_clean_text_alphabet (py "Can't sleep... AGAIN (3rd night)")).
  reflexivity.
Defined.

(** ** The cards of the pages *)

Ltac unfold_render :=
  unfold TextAnalysis.render, SpeechText.render_with, SpeechSentiment.render,
    dict_get, TextAnalysis.health_map, SpeechText.health_map_text,
    SpeechText.health_map_speech, SpeechSentiment.health_map in *;
  cbn [label score] in *.

(** Splits on the label: one of the four with an entry, or any other, whose
    lookups are then rewritten to their fallback. *)
Ltac label_cases l E :=
  destruct (bool_decide (l ∈ mapped_labels)) eqn:E;
  [ apply bool_decide_eq_true in E; unfold mapped_labels in E;
    repeat (apply elem_of_cons in E as [->|E]); [| | | | now apply elem_of_nil in E]
  | unfold_render; rewrite ?(unmapped_lookup l) by exact E;
    apply bool_decide_eq_false in E ].

(** The pages agree on what they say about a label.  The text mode of
    [speech-text.py] gives every label the diagnosis and the color that
    [Text_Sentiment.py] gives it; all four lookups give a label the same
    color; the speech mode of [speech-text.py] and [Speech_Sentiment.py] give
    a label the same diagnosis exactly for the four labels with an entry (for
    the others one says "Other", the other "Neutral"); and a text page and a
    speech page give a label the same diagnosis exactly when the label is not
    sadness, fear or anger. *)
Theorem pages_agree (p : EmotionScore) :
  risk (TextAnalysis.render p)
  = risk (SpeechText.render_with SpeechText.health_map_text p)
  /\ card_color (SpeechText.render_with SpeechText.health_map_speech p)
     = card_color (TextAnalysis.render p)
  /\ card_color (SpeechSentiment.render p) = card_color (TextAnalysis.render p)
  /\ (card_diagnosis (SpeechSentiment.render p)
      = card_diagnosis (SpeechText.render_with SpeechText.health_map_speech p)
      <-> label p ∈ mapped_labels)
  /\ (card_diagnosis (TextAnalysis.render p)
      = card_diagnosis (SpeechText.render_with SpeechText.health_map_speech p)
      <-> label p ∉ [ "sadness"; "fear"; "anger" ]%string).
Proof.
  destruct p as [l q]. cbn [label]. label_cases l E.
  1-3: repeat split; try reflexivity;
       solve [ intros _; repeat constructor
             | intros H; vm_compute in H; discriminate H
             | intros H; exfalso; apply H; repeat constructor ].
  - repeat split; try reflexivity; intros _; [repeat constructor|].
    intros H. repeat (apply elem_of_cons in H as [H|H]; [discriminate H|]).
    now apply elem_of_nil in H.
  - repeat split; try reflexivity.
    + intros H. vm_compute in H. discriminate H.
    + intros H. contradiction.
    + intros _ H. apply E.
      repeat (apply elem_of_cons in H as [->|H]; [repeat constructor|]).
      now apply elem_of_nil in H.
Qed.

(** A card's color is one of five, and it is the grey of the fallback exactly
    when the label has no entry. *)
Theorem card_color_palette (p : EmotionScore) :
  let colors :=
    [ card_color (TextAnalysis.render p);
      card_color (SpeechText.render_with SpeechText.health_map_text p);
      card_color (SpeechText.render_with SpeechText.health_map_speech p);
      card_color (SpeechSentiment.render p) ] in
  forallb (fun c => existsb (String.eqb c) palette) colors = true
  /\ forallb (fun c => Bool.eqb (String.eqb c fallback_color)
                         (negb (bool_decide (label p ∈ mapped_labels)))) colors
     = true.
Proof.
  destruct p as [l q]. cbn [label].
  destruct (bool_decide (l ∈ mapped_labels)) eqn:E.
  - apply bool_decide_eq_true in E. unfold mapped_labels in E.
    repeat (apply elem_of_cons in E as [->|E]); [| | | | now apply elem_of_nil in E].
    all: split; reflexivity.
  - unfold_render. rewrite !(unmapped_lookup l) by exact E.
    split; reflexivity.
Qed.

(** Two predictions get cards of the same color exactly when they have the
    same label or both have a label without entry: among the four labels with
    an entry the color tells the label. *)
Theorem same_color_iff (p1 p2 : EmotionScore) :
  (card_color (TextAnalysis.render p1) = card_color (TextAnalysis.render p2)
   <-> label p1 = label p2
       \/ ((label p1 ∉ mapped_labels) /\ (label p2 ∉ mapped_labels)))
  /\ (card_color (SpeechSentiment.render p1) = card_color (SpeechSentiment.render p2)
      <-> label p1 = label p2
          \/ ((label p1 ∉ mapped_labels) /\ (label p2 ∉ mapped_labels))).
Proof.
  destruct p1 as [l1 q1], p2 as [l2 q2]. cbn [label].
  label_cases l1 E1; label_cases l2 E2; simpl.
  all: split; (split;
    [ intros H; first [ left; reflexivity | right; split; assumption
                      | vm_compute in H; discriminate H ]
    | intros [H|[H1 H2]];
      first [ reflexivity | discriminate H
            | exfalso; subst; solve [apply E1; repeat constructor | apply E2; repeat constructor]
            | exfalso; solve [apply H1; repeat constructor | apply H2; repeat constructor] ] ]).
Qed.

Lemma row_by_label (render : EmotionScore -> card) :
  (forall p, card_label (render p) = label p) ->
  (forall p1 p2, label p1 = label p2 -> risk (render p1) = risk (render p2)) ->
  forall scores,
    map row (map render scores)
    = map (fun l => row (render {| label := l; score := 0 |})) (map label scores).
Proof.
  intros Hl Hr scores. rewrite !map_map. apply map_ext. intros p.
  unfold row. specialize (Hr p {| label := label p; score := 0 |} eq_refl).
  unfold risk in Hr. injection Hr as -> ->. now rewrite !Hl.
Qed.

Lemma render_label_TextAnalysis p : card_label (TextAnalysis.render p) = label p.
Proof. unfold TextAnalysis.render. now destruct (dict_get _ _ _). Qed.

Lemma render_label_SpeechSentiment p : card_label (SpeechSentiment.render p) = label p.
Proof. unfold SpeechSentiment.render. now destruct (dict_get _ _ _). Qed.

Lemma render_risk_TextAnalysis p1 p2 :
  label p1 = label p2 -> risk (TextAnalysis.render p1) = risk (TextAnalysis.render p2).
Proof.
  intros H. unfold TextAnalysis.render, risk. rewrite H.
  now destruct (dict_get _ _ _).
Qed.

Lemma render_risk_SpeechSentiment p1 p2 :
  label p1 = label p2 ->
  risk (SpeechSentiment.render p1) = risk (SpeechSentiment.render p2).
Proof.
  intros H. unfold SpeechSentiment.render, risk. rewrite H.
  now destruct (dict_get _ _ _).
Qed.

Lemma render_score_TextAnalysis p : card_score (TextAnalysis.render p) = score p.
Proof. unfold TextAnalysis.render. now destruct (dict_get _ _ _). Qed.

(** Whatever non-empty text is typed in, [main_interface] draws seven cards,
    one per label of the model in the model's order, with fixed diagnosis and
    color (joy, surprise and disgust are shown as "Other"); only the scores
    depend on the text, and they are those the model gives for the first 512
    tokens of the cleaned text.  The text mode of [speech-text.py] draws the
    same cards. *)
Theorem main_interface_cards
    (isalnum : N -> bool) (tolower_full : N -> list N)
    (final_sigma : str -> str -> bool) (stopwords : list str)
    (tokenize : str -> list N) (forward : list N -> list EmotionScore)
    (text : str) :
  text <> [] ->
  (forall ids, map label (forward ids) = id2label) ->
  exists cards,
    TextAnalysis.main_interface isalnum tolower_full final_sigma stopwords
      tokenize forward text = Some cards
    /\ SpeechText.main_text isalnum tolower_full final_sigma stopwords
         tokenize forward text = Some cards
    /\ map row cards = text_page_rows
    /\ map card_score cards
       = map score
           (forward (firstn 512
              (tokenize (clean_text isalnum tolower_full final_sigma stopwords text)))).
Proof.
  intros Hne Hlabels. destruct text as [|c text]; [congruence|].
  eexists. split; [reflexivity|]. split; [reflexivity|]. split.
  - rewrite (row_by_label _ render_label_TextAnalysis render_risk_TextAnalysis).
    cbn [scores_of]. rewrite Hlabels. reflexivity.
  - rewrite map_map. apply map_ext. intros p. apply render_score_TextAnalysis.
Qed.

(** Whatever the transcript, the page of [Speech_Sentiment.py] draws seven
    cards, one per label of the model in the model's order, with fixed
    diagnosis and color (joy, surprise and disgust are shown as "Neutral",
    while the label neutral is shown as "Baseline State"). *)
Theorem speech_sentiment_cards
    (tokenize : str -> list N) (forward : list N -> list EmotionScore)
    (transcript : str) :
  (forall ids, map label (forward ids) = id2label) ->
  exists cards,
    SpeechSentiment.main tokenize forward transcript = Some cards
    /\ map row cards = speech_page_rows.
Proof.
  intros Hlabels. eexists. split; [reflexivity|].
  rewrite (row_by_label _ render_label_SpeechSentiment render_risk_SpeechSentiment).
  cbn [scores_of]. rewrite Hlabels. reflexivity.
Qed.

Lemma main_interface_cards_witness :
  py "so tired" <> []
  /\ (forall ids, map label (uniform_head ids) = id2label)
  /\ exists cards,
       TextAnalysis.main_interface ucd_isalnum ucd_tolower_full ucd_final_sigma
         nltk_english char_tokenize uniform_head (py "so tired") = Some cards
       /\ map row cards = text_page_rows.
Proof.
  split; [discriminate|]. split; [reflexivity|].
  destruct (main_interface_cards ucd_isalnum ucd_tolower_full ucd_final_sigma
              nltk_english char_tokenize uniform_head (py "so tired"))
    as (cards & H1 & _ & H3 & _); [discriminate | reflexivity |].
  exists cards. split; assumption.
Defined.

Lemma speech_sentiment_cards_witness :
  (forall ids, map label (uniform_head ids) = id2label)
  /\ exists cards,
       SpeechSentiment.main char_tokenize uniform_head (py "so tired") = Some cards
       /\ map row cards = speech_page_rows.
Proof.
  split; [reflexivity|].
  apply (speech_sentiment_cards char_tokenize uniform_head (py "so tired")).
  reflexivity.
Defined.

(** ** Truncation and previews *)

(** A text whose cleaned form has at most 512 tokens is classified whole: the
    truncating call of the text pages gives what the plain call of the speech
    pages gives on the same string. *)
Theorem short_text_not_truncated
    (isalnum : N -> bool) (tolower_full : N -> list N)
    (final_sigma : str -> str -> bool) (stopwords : list str)
    (tokenize : str -> list N) (forward : list N -> list EmotionScore)
    (text : str) :
  let cleaned_text := clean_text isalnum tolower_full final_sigma stopwords text in
  length (tokenize cleaned_text) <= 512 ->
  encode tokenize TextAnalysis.call_kw cleaned_text = tokenize cleaned_text
  /\ TextAnalysis.predictions isalnum tolower_full final_sigma stopwords
       tokenize forward text
     = SpeechText.speech_predictions tokenize forward cleaned_text
  /\ SpeechText.text_predictions isalnum tolower_full final_sigma stopwords
       tokenize forward text
     = SpeechText.speech_predictions tokenize forward cleaned_text.
Proof.
  intros cleaned_text H.
  assert (E : encode tokenize TextAnalysis.call_kw cleaned_text = tokenize cleaned_text).
  { unfold encode. simpl. now apply firstn_all2. }
  split; [exact E|].
  unfold TextAnalysis.predictions, SpeechText.text_predictions,
    SpeechText.speech_predictions, classify.
  fold cleaned_text. change SpeechText.text_call_kw with TextAnalysis.call_kw.
  rewrite E. split; reflexivity.
Qed.

Lemma short_text_not_truncated_witness :
  length (char_tokenize (py_clean_text hopeless)) <= 512
  /\ TextAnalysis.predictions ucd_isalnum ucd_tolower_full ucd_final_sigma
       nltk_english char_tokenize uniform_head hopeless
     = SpeechText.speech_predictions char_tokenize uniform_head
         (py_clean_text hopeless).
Proof.
  split; [vm_compute; lia|].
  apply (short_text_not_truncated ucd_isalnum ucd_tolower_full ucd_final_sigma
           nltk_english char_tokenize uniform_head hopeless).
  vm_compute. lia.
Defined.

Lemma ellipsis_short limit s : length s <= limit -> ellipsis limit s = s.
Proof.
  intros H. unfold ellipsis. destruct (limit <? length s)%nat eqn:E; [|reflexivity].
  apply Nat.ltb_lt in E. lia.
Qed.

Lemma ellipsis_long limit s :
  limit < length s ->
  ellipsis limit s = firstn limit s ++ py "..."
  /\ length (ellipsis limit s) = limit + 3.
Proof.
  intros H. unfold ellipsis. apply Nat.ltb_lt in H as E. rewrite E.
  split; [reflexivity|]. rewrite length_app, length_firstn. simpl. lia.
Qed.

Lemma ellipsis_prefix limit s : firstn limit (ellipsis limit s) = firstn limit s.
Proof.
  destruct (Nat.le_gt_cases (length s) limit) as [H|H].
  - now rewrite ellipsis_short.
  - destruct (ellipsis_long limit s H) as [-> _].
    rewrite firstn_app, length_firstn.
    replace (limit - Nat.min limit (length s)) with 0 by lia.
    rewrite firstn_firstn, Nat.min_id. simpl. apply app_nil_r.
Qed.

(** The overview box of [main_interface] shows the cleaned text itself when
    it has at most 200 characters, otherwise its first 200 characters and
    three dots: never more than 203 characters, always starting like the
    cleaned text, and for a cleaned text of 201 or 202 characters longer than
    the text it abridges.  The "Processed Text" of [speech-text.py] does the
    same with 500. *)
Theorem overview_bounds
    (isalnum : N -> bool) (tolower_full : N -> list N)
    (final_sigma : str -> str -> bool) (stopwords : list str) (text : str) :
  let cleaned_text := clean_text isalnum tolower_full final_sigma stopwords text in
  let shown := TextAnalysis.overview isalnum tolower_full final_sigma stopwords text in
  let shown' := SpeechText.processed_text isalnum tolower_full final_sigma stopwords text in
  (if (length cleaned_text <=? 200)%nat then shown = cleaned_text
   else shown = firstn 200 cleaned_text ++ py "..." /\ length shown = 203)
  /\ firstn 200 shown = firstn 200 cleaned_text
  /\ (if (length cleaned_text <=? 500)%nat then shown' = cleaned_text
      else shown' = firstn 500 cleaned_text ++ py "..." /\ length shown' = 503)
  /\ firstn 500 shown' = firstn 500 cleaned_text.
Proof.
  intros cleaned_text shown shown'. subst shown shown'.
  unfold TextAnalysis.overview, SpeechText.processed_text. fold cleaned_text.
  repeat split; try apply ellipsis_prefix.
  - destruct (length cleaned_text <=? 200)%nat eqn:E.
    + apply Nat.leb_le in E. now apply ellipsis_short.
    + apply Nat.leb_gt in E. now apply ellipsis_long.
  - destruct (length cleaned_text <=? 500)%nat eqn:E.
    + apply Nat.leb_le in E. now apply ellipsis_short.
    + apply Nat.leb_gt in E. now apply ellipsis_long.
Qed.

(** ** Edge cases of the pages *)

(** A non-empty text in which every word of the lower-cased, regex-stripped
    text is a stop word (such as "I am.") is still analysed: [main_interface]
    has no test on the cleaned text, so the model is called on the empty
    string and the cards show its scores for that, whatever the text was. *)
Theorem stopword_only_text_analysed
    (isalnum : N -> bool) (tolower_full : N -> list N)
    (final_sigma : str -> str -> bool) (stopwords : list str)
    (tokenize : str -> list N) (forward : list N -> list EmotionScore)
    (text : str) :
  text <> [] ->
  forallb (contains stopwords)
    (split (lower tolower_full final_sigma (re_sub_nonword isalnum text))) = true ->
  TextAnalysis.main_interface isalnum tolower_full final_sigma stopwords
    tokenize forward text
  = Some (map TextAnalysis.render (forward (firstn 512 (tokenize [])))).
Proof.
  intros Hne Hstop. destruct text as [|c text]; [congruence|].
  unfold TextAnalysis.main_interface, TextAnalysis.predictions.
  replace (clean_text isalnum tolower_full final_sigma stopwords (c :: text))
    with (@nil N); [reflexivity|].
  symmetry. rewrite clean_text_join, clean_text_tokens.
  apply filter_not_stopword_nil in Hstop. now rewrite Hstop.
Qed.

Lemma stopword_only_text_analysed_witness :
  py "I am." <> []
  /\ forallb (contains nltk_english)
       (split (lower ucd_tolower_full ucd_final_sigma
                 (re_sub_nonword ucd_isalnum (py "I am.")))) = true
  /\ TextAnalysis.main_interface ucd_isalnum ucd_tolower_full ucd_final_sigma
       nltk_english char_tokenize uniform_head (py "I am.")
     = Some (map TextAnalysis.render (uniform_head (firstn 512 (char_tokenize [])))).
Proof.
  split; [discriminate|]. split; [reflexivity|].
  apply (stopword_only_text_analysed ucd_isalnum ucd_tolower_full ucd_final_sigma
           nltk_english char_tokenize uniform_head (py "I am."));
    [discriminate | reflexivity].
Defined.

(** For one transcript and one model, the single emotion that the page of
    [Speech-Text-Analysis/Text_Sentiment.py] shows is one of the cards of the
    page of [Speech_Sentiment.py], with the same score, and no card has a
    higher score. *)
Theorem detected_emotion_is_top_card
    (tokenize : str -> list N) (forward : list N -> list EmotionScore)
    (transcript : str) :
  forward (tokenize transcript) <> [] ->
  exists l s cards,
    SpeechTextSentiment.main tokenize forward transcript = Some (l, s)
    /\ SpeechSentiment.main tokenize forward transcript = Some cards
    /\ (exists c, In c cards /\ card_label c = l /\ card_score c = s)
    /\ Forall (fun c => Qle_bool (card_score c) s = true) cards.
Proof.
  intros Hne. destruct (argmax_some _ Hne) as (b & Hb & Hin & Hmax).
  exists (label b), (score b), (map SpeechSentiment.render (forward (tokenize transcript))).
  split; [|split; [reflexivity|split]].
  - unfold SpeechTextSentiment.main, SpeechTextSentiment.emotions, classify, encode.
    simpl. now rewrite Hb.
  - exists (SpeechSentiment.render b). split; [now apply in_map|].
    unfold SpeechSentiment.render. now destruct (dict_get _ _ _).
  - apply List.Forall_forall. intros c Hc. apply in_map_iff in Hc as (e & <- & He).
    rewrite List.Forall_forall in Hmax. specialize (Hmax e He).
    unfold SpeechSentiment.render. now destruct (dict_get _ _ _).
Qed.

Lemma detected_emotion_is_top_card_witness :
  uniform_head (char_tokenize (py "so tired")) <> []
  /\ exists l s cards,
       SpeechTextSentiment.main char_tokenize uniform_head (py "so tired") = Some (l, s)
       /\ SpeechSentiment.main char_tokenize uniform_head (py "so tired") = Some cards
       /\ (exists c, In c cards /\ card_label c = l /\ card_score c = s)
       /\ Forall (fun c => Qle_bool (card_score c) s = true) cards.
Proof.
  split; [discriminate|].
  apply (detected_emotion_is_top_card char_tokenize uniform_head (py "so tired")).
  discriminate.
Defined.
